(** * NeuroKit: the EMG analysis dispatcher

    A shallow embedding of [neurokit2/emg/emg_analyze.py] and the
    properties of its method selection.

    [emg_analyze(data, sampling_rate, method)] lower-cases [method], picks
    one of three branches by list membership, and hands [data] to
    [emg_eventrelated] or [emg_intervalrelated].  Python exceptions are
    modelled with an error monad, unassigned local variables with [option].
    The two extractors live in other modules of the package and are taken
    as an interface. *)

From Stdlib Require Import List Bool Arith ZArith QArith Lia.
From Stdlib Require Import Strings.Ascii Strings.String.
Import ListNotations.

Open Scope string_scope.

(** ** Strings: [str.lower], [==], [in] *)

(** [str.lower] on one character.  The directive names are pure ASCII, so
    only the range [A-Z] matters for the dispatch; other characters are
    left alone. *)
Definition lower_ascii (c : ascii) : ascii :=
  let n := nat_of_ascii c in
  if (65 <=? n)%nat && (n <=? 90)%nat then ascii_of_nat (n + 32) else c.

(** [method.lower()] *)
Fixpoint lower (s : string) : string :=
  match s with
  | EmptyString => EmptyString
  | String c s' => String (lower_ascii c) (lower s')
  end.

(** [x in [a, b, ...]] for a string [x] and a list literal. *)
Definition str_in (x : string) (l : list string) : bool :=
  existsb (String.eqb x) l.

(** [hay.startswith(needle)] *)
Fixpoint startswith (needle hay : string) : bool :=
  match needle, hay with
  | EmptyString, _ => true
  | String _ _, EmptyString => false
  | String a needle', String b hay' => Ascii.eqb a b && startswith needle' hay'
  end.

(** [needle in hay] for two strings: substring test. *)
Fixpoint str_contains (needle hay : string) : bool :=
  startswith needle hay ||
  match hay with
  | EmptyString => false
  | String _ hay' => str_contains needle hay'
  end.

(** ** Exceptions and the error monad *)

(** Keys of an epoch dictionary: [epochs_create] uses strings, hand-made
    dictionaries often use integers. *)
Inductive Key : Type :=
| KInt (z : Z)
| KStr (s : string).

Definition Key_eqb (a b : Key) : bool :=
  match a, b with
  | KInt x, KInt y => Z.eqb x y
  | KStr x, KStr y => String.eqb x y
  | _, _ => false
  end.

Inductive exn : Type :=
| ValueError (msg : string)
| UnboundLocalError (var : string)
| ZeroDivisionError
| KeyError (k : Key)
| OtherError (name msg : string).

Inductive outcome (A : Type) : Type :=
| Returned (a : A)
| Raised (e : exn).
Arguments Returned {A} a.
Arguments Raised {A} e.

Definition bind {A B} (m : outcome A) (k : A -> outcome B) : outcome B :=
  match m with
  | Returned a => k a
  | Raised e => Raised e
  end.

Notation "x <- m ;; k" := (bind m (fun x => k))
  (at level 61, m at next level, right associativity).

(** Reading a local variable: unassigned locals raise. *)
Definition local {A} (var : string) (v : option A) : outcome A :=
  match v with
  | Some a => Returned a
  | None => Raised (UnboundLocalError var)
  end.

(** ** Data: DataFrames and dictionaries of DataFrames *)

Inductive cell : Type :=
| CNum (q : Q)
| CStr (s : string).

(** A pandas DataFrame, as far as the dispatcher looks at it: its column
    labels and its rows.  The labels are strings, as the column names of
    the signal tables are; pandas also admits labels of other types, on
    which the test ["Label" in i] raises [TypeError], and these are left
    out of the model. *)
Record Frame : Type := mkFrame {
  columns : list string;
  rows : list (list cell)
}.

(** [len(df)] *)
Definition len (f : Frame) : nat := List.length (rows f).

(** A Python [dict] keeps insertion order; entries are listed in it.  The
    values are DataFrames, one per epoch; a dictionary with other values,
    on which [.columns] raises [AttributeError], is left out of the
    model. *)
Definition dict : Type := list (Key * Frame).

(** What [data] may be: the two [isinstance] tests of the source leave a
    third case, an object that is neither. *)
Inductive Data : Type :=
| DataFrame (f : Frame)
| Dict (d : dict)
| Other.

(** [for i in data] visits the keys in insertion order. *)
Definition keys (d : dict) : list Key := map fst d.

(** [data[i]] *)
Fixpoint getitem (d : dict) (i : Key) : outcome Frame :=
  match d with
  | [] => Raised (KeyError i)
  | (k, f) :: d' => if Key_eqb k i then Returned f else getitem d' i
  end.

(** A Python dictionary holds each key once. *)
Definition dict_wf (d : dict) : Prop := NoDup (keys d).

(** [n / sampling_rate] with [n] a length and an integer rate: true
    division.  Python returns the float nearest to the quotient; the model
    keeps the quotient itself, as a rational.  Rounding is monotone and
    leaves 10 as it is, so a quotient of at least 10 stays so; a quotient
    below 10 is rounded up to 10.0 only from [10 - 2^-50] on, half the
    spacing of the floats just below 10, which the quotient of two whole
    numbers can reach only with a rate of [2^50] or more. *)
Definition truediv (n : nat) (sampling_rate : Z) : outcome Q :=
  if (sampling_rate =? 0)%Z then Raised ZeroDivisionError
  else Returned (inject_Z (Z.of_nat n) / inject_Z sampling_rate)%Q.

(** ** The consumed interface: the two feature extractors *)

Class Strategies (Result : Type) : Type := {
  emg_eventrelated : Data -> outcome Result;
  emg_intervalrelated : Data -> outcome Result
}.

(** ** emg_analyze *)

Definition event_directives : list string := ["event-related"; "event"; "epoch"].
Definition interval_directives : list string :=
  ["interval-related"; "interval"; "resting-state"].
Definition auto_directives : list string := ["auto"].

(** The three adjacent literals of the [raise] are concatenated by Python
    without separating blanks. *)
Definition wrong_input_message : string :=
  "NeuroKit error: emg_analyze(): Wrong input" ++
  "or method, we couldn't extract" ++
  "extract epochs features.".

(** ["Label" in i] *)
Definition has_label (i : string) : bool := str_contains "Label" i.

(** [for i in data: colnames = data[i].columns.values], the local
    [colnames] threaded through the iterations. *)
Fixpoint for_colnames (data : dict) (ks : list Key)
    (colnames : option (list string)) : outcome (option (list string)) :=
  match ks with
  | [] => Returned colnames
  | i :: ks' =>
      f <- getitem data i ;;
      for_colnames data ks' (Some (columns f))
  end.

(** [for i in data: duration = len(data[i]) / sampling_rate] *)
Fixpoint for_duration (data : dict) (ks : list Key) (sampling_rate : Z)
    (duration : option Q) : outcome (option Q) :=
  match ks with
  | [] => Returned duration
  | i :: ks' =>
      f <- getitem data i ;;
      q <- truediv (len f) sampling_rate ;;
      for_duration data ks' sampling_rate (Some q)
  end.

Section Dispatch.

Context {Result : Type} `{Strategies Result}.

(** Lines 66-78: the sanity check and the call of the event-related branch. *)
Definition event_related_branch (data : Data) : outcome Result :=
  colnames <- match data with
              | Dict d => for_colnames d (keys d) None
              | DataFrame f => Returned (Some (columns f))
              | Other => Returned None
              end ;;
  colnames <- local "colnames" colnames ;;
  if (List.length (filter has_label colnames) =? 0)%nat
  then Raised (ValueError wrong_input_message)
  else emg_eventrelated data.

(** [if duration >= 10: ... else: ...] *)
Definition by_duration (data : Data) (duration : Q) : outcome Result :=
  if Qle_bool 10 duration then emg_intervalrelated data
  else emg_eventrelated data.

(** Lines 87-100: two consecutive [if isinstance] blocks, each assigning
    [features]. *)
Definition auto_branch (data : Data) (sampling_rate : Z) : outcome Result :=
  features <- match data with
              | Dict d =>
                  duration <- for_duration d (keys d) sampling_rate None ;;
                  duration <- local "duration" duration ;;
                  r <- by_duration data duration ;;
                  Returned (Some r)
              | _ => Returned None
              end ;;
  features <- match data with
              | DataFrame f =>
                  duration <- truediv (len f) sampling_rate ;;
                  r <- by_duration data duration ;;
                  Returned (Some r)
              | _ => Returned features
              end ;;
  local "features" features.

Definition emg_analyze (data : Data) (sampling_rate : Z) (method : string)
    : outcome Result :=
  let method := lower method in
  if str_in method event_directives then event_related_branch data
  else if str_in method interval_directives then emg_intervalrelated data
  else if str_in method auto_directives then auto_branch data sampling_rate
  else local "features" None.

End Dispatch.

(** ** Observing the dispatch *)

(** Which extractor a call reached.  Running [emg_analyze] with extractors
    that only report their own name shows the decision of the dispatcher
    and nothing else. *)
Inductive strategy : Type :=
| EventRelated
| IntervalRelated.

#[export] Instance reporting : Strategies strategy := {
  emg_eventrelated := fun _ => Returned EventRelated;
  emg_intervalrelated := fun _ => Returned IntervalRelated
}.

Definition resolved (data : Data) (sampling_rate : Z) (method : string)
    : outcome strategy :=
  emg_analyze (H := reporting) data sampling_rate method.

(** Calling the chosen extractor directly. *)
Definition run {Result} `{Strategies Result} (s : strategy) (data : Data)
    : outcome Result :=
  match s with
  | EventRelated => emg_eventrelated data
  | IntervalRelated => emg_intervalrelated data
  end.

(** The value of the local [duration] when the test [duration >= 10] of the
    auto branch is reached, if it is reached. *)
Definition computed_duration (data : Data) (sampling_rate : Z) : option Q :=
  match data with
  | Dict d =>
      match for_duration d (keys d) sampling_rate None with
      | Returned (Some q) => Some q
      | _ => None
      end
  | DataFrame f =>
      match truediv (len f) sampling_rate with
      | Returned q => Some q
      | Raised _ => None
      end
  | Other => None
  end.

(** Every column name that occurs in the input: the columns of the table,
    or those of all the epochs of a collection. *)
Definition all_column_names (data : Data) : list string :=
  match data with
  | DataFrame f => columns f
  | Dict d => flat_map (fun kf => columns (snd kf)) d
  | Other => []
  end.

(** No column name of the input contains ["Label"]. *)
Definition no_marker (data : Data) : Prop :=
  forall c, In c (all_column_names data) -> has_label c = false.

(** The input has a table to read column names from. *)
Definition has_table (data : Data) : Prop :=
  match data with
  | DataFrame _ => True
  | Dict d => d <> []
  | Other => False
  end.

(** The epoch visited last by [for i in data]. *)
Definition last_epoch (d : dict) : option Frame :=
  match rev d with
  | [] => None
  | (_, f) :: _ => Some f
  end.

(** The directive names one of the two strategies itself. *)
Definition explicit_event (method : string) : Prop :=
  In (lower method) event_directives.
Definition explicit_interval (method : string) : Prop :=
  In (lower method) interval_directives.
Definition unrecognized (method : string) : Prop :=
  ~ In (lower method) (event_directives ++ interval_directives ++ auto_directives).

(** The strategy, read as the specification words it, is event-related:
    by an explicit directive, or in auto mode with a duration under ten
    seconds. *)
Definition resolves_event_related (data : Data) (sampling_rate : Z)
    (method : string) : Prop :=
  explicit_event method \/
  (lower method = "auto" /\
   exists d, computed_duration data sampling_rate = Some d /\ (d < 10)%Q).

(** The marker check as the specification words it for a collection: some
    column name of some epoch contains ["Label"]. *)
Definition marker_in_full_set (d : dict) : bool :=
  existsb has_label (all_column_names (Dict d)).

(** The marker check on one table. *)
Definition marker_in (f : Frame) : bool := existsb has_label (columns f).

(** ** Sample inputs *)

(** A table with the given columns and [n] rows of zeros. *)
Definition table_of (colnames : list string) (n : nat) : Frame :=
  mkFrame colnames (repeat (map (fun _ => CNum 0) colnames) n).

Definition amplitude_only : list string := ["EMG_Amplitude"].
Definition amplitude_and_label : list string := ["EMG_Amplitude"; "Label"].

(** 0.2 s of signal at 1000 Hz, without a marker column. *)
Definition short_table : Data := DataFrame (table_of amplitude_only 200).

(** Two epochs of 200 rows, keys 0 and 1. *)
Definition two_epochs : Data :=
  Dict [(KInt 0, table_of amplitude_and_label 200);
        (KInt 1, table_of amplitude_and_label 200)].

(** Only the first of two epochs carries the marker column. *)
Definition marker_first_only : dict :=
  [(KInt 0, table_of amplitude_and_label 200);
   (KInt 1, table_of amplitude_only 200)].

(** Two epochs, neither with a marker column. *)
Definition two_epochs_unmarked : Data :=
  Dict [(KStr "1", table_of amplitude_only 200);
        (KStr "2", table_of amplitude_only 200)].

(** Ten seconds of signal at 10 Hz. *)
Definition ten_second_table : Data :=
  DataFrame (table_of amplitude_and_label 100).

(** A long first epoch followed by a short one. *)
Definition long_then_short : dict :=
  [(KStr "1", table_of amplitude_and_label 100);
   (KStr "2", table_of amplitude_and_label 20)].

(** The marker column spelled in lower case. *)
Definition lowercase_marker : Frame :=
  table_of ["EMG_Amplitude"; "label"] 20.

(** The marker inside a longer column name. *)
Definition embedded_marker : Frame :=
  table_of ["EMG_Amplitude"; "Condition_Label_1"] 20.

(** ** Reading the checks in plain terms *)

(** The column name has ["Label"] somewhere inside, in this spelling. *)
Definition contains_label (c : string) : Prop :=
  exists pre post, c = pre ++ "Label" ++ post.

(** The failures the dispatcher raises by itself in auto mode. *)
Definition auto_failure (e : exn) : Prop :=
  e = ZeroDivisionError \/ e = UnboundLocalError "duration" \/
  e = UnboundLocalError "features".

(** The test [duration >= 10] on whole numbers: at least ten times the
    sampling rate in rows. *)
Definition ten_seconds_of_rows (n : nat) (sampling_rate : Z) : bool :=
  (10 * sampling_rate <=? Z.of_nat n)%Z.

(** Below this sampling rate the float quotient of the code and the exact
    one lie on the same side of 10. *)
Definition rate_limit : Z := 2 ^ 50.

(** Half the spacing of the floats between 8 and 16, [2^-50]: a quotient
    further than this below 10 is rounded to a float below 10. *)
Definition half_spacing : Q := 1 # 1125899906842624.

(** ** Strings *)

Lemma lower_ascii_idempotent (c : ascii) :
  lower_ascii (lower_ascii c) = lower_ascii c.
Proof.
  destruct c as [[] [] [] [] [] [] [] []]; reflexivity.
Qed.

Lemma lower_idempotent (s : string) : lower (lower s) = lower s.
Proof.
  induction s as [|c s IH]; simpl.
  - reflexivity.
  - now rewrite lower_ascii_idempotent, IH.
Qed.

Lemma str_in_In (x : string) (l : list string) : str_in x l = true <-> In x l.
Proof.
  unfold str_in. rewrite existsb_exists. split.
  - intros [y [Hy Heq]]. apply String.eqb_eq in Heq. now subst.
  - intros Hin. exists x. split; [assumption | apply String.eqb_refl].
Qed.

Lemma str_in_not_In (x : string) (l : list string) :
  str_in x l = false <-> ~ In x l.
Proof.
  rewrite <- str_in_In. destruct (str_in x l); split; congruence.
Qed.

Lemma startswith_spec (needle hay : string) :
  startswith needle hay = true <-> exists post, hay = needle ++ post.
Proof.
  revert hay. induction needle as [|a needle IH]; intros hay; simpl.
  - split; [intros _; now exists hay | reflexivity].
  - destruct hay as [|b hay].
    + split; [discriminate | intros [post Hpost]; discriminate].
    + rewrite andb_true_iff, IH. split.
      * intros [Hab [post ->]]. apply Ascii.eqb_eq in Hab. subst b.
        now exists post.
      * intros [post Hpost]. injection Hpost as -> ->.
        split; [apply Ascii.eqb_refl | now exists post].
Qed.

(** [str_contains] is the substring test of Python's [in]. *)
Lemma str_contains_spec (needle hay : string) :
  str_contains needle hay = true <->
  exists pre post, hay = pre ++ needle ++ post.
Proof.
  induction hay as [|b hay IH].
  - simpl. rewrite orb_false_r, startswith_spec. split.
    + intros [post Hpost]. now exists "", post.
    + intros [pre [post Hpp]]. destruct pre; [now exists post | discriminate].
  - cbn [str_contains]. rewrite orb_true_iff, startswith_spec, IH. split.
    + intros [[post Hpost] | [pre [post Hpp]]].
      * now exists "", post.
      * exists (String b pre), post. simpl. now rewrite Hpp.
    + intros [pre [post Hpp]]. destruct pre as [|c pre].
      * left. now exists post.
      * right. simpl in Hpp. injection Hpp as _ Hpp. now exists pre, post.
Qed.

Lemma has_label_spec (i : string) :
  has_label i = true <-> exists pre post, i = pre ++ "Label" ++ post.
Proof.
  apply str_contains_spec.
Qed.

Lemma no_label_filter (colnames : list string) :
  (forall c, In c colnames -> has_label c = false) ->
  filter has_label colnames = [].
Proof.
  induction colnames as [|c cs IH]; intros Hall; simpl.
  - reflexivity.
  - rewrite (Hall c (or_introl eq_refl)). apply IH.
    intros c' Hc'. apply Hall. now right.
Qed.

(** The test [len([i for i in colnames if "Label" in i]) == 0]. *)
Lemma label_count_zero (colnames : list string) :
  (List.length (filter has_label colnames) =? 0)%nat =
  negb (existsb has_label colnames).
Proof.
  induction colnames as [|c cs IH]; simpl.
  - reflexivity.
  - destruct (has_label c); simpl; [reflexivity | exact IH].
Qed.

(** ** Dictionaries *)

Lemma Key_eqb_eq (a b : Key) : Key_eqb a b = true <-> a = b.
Proof.
  destruct a as [x|x], b as [y|y]; simpl.
  - rewrite Z.eqb_eq. split; congruence.
  - split; discriminate.
  - split; discriminate.
  - rewrite String.eqb_eq. split; congruence.
Qed.

Lemma Key_eqb_refl (a : Key) : Key_eqb a a = true.
Proof. now apply Key_eqb_eq. Qed.

Lemma getitem_of_key (d : dict) (i : Key) :
  In i (keys d) -> exists f, getitem d i = Returned f /\ In (i, f) d.
Proof.
  induction d as [|[k f] d IH]; simpl.
  - intros [].
  - intros Hin. destruct (Key_eqb k i) eqn:Hk.
    + apply Key_eqb_eq in Hk. subst k. exists f. auto.
    + destruct Hin as [Heq | Hin].
      * subst k. rewrite Key_eqb_refl in Hk. discriminate.
      * destruct (IH Hin) as [g [Hg Hing]]. exists g. auto.
Qed.

Lemma getitem_last (d : dict) (k : Key) (f : Frame) :
  ~ In k (keys d) -> getitem (d ++ [(k, f)])%list k = Returned f.
Proof.
  induction d as [|[k' f'] d IH]; simpl; intros Hnot.
  - now rewrite Key_eqb_refl.
  - destruct (Key_eqb k' k) eqn:Hk.
    + apply Key_eqb_eq in Hk. subst k'. exfalso. apply Hnot. now left.
    + apply IH. intros Hin. apply Hnot. now right.
Qed.

Lemma dict_snoc (d : dict) :
  d <> [] -> exists d' k f, d = (d' ++ [(k, f)])%list /\ last_epoch d = Some f.
Proof.
  intros Hne. unfold last_epoch.
  destruct (rev d) as [|[k f] r] eqn:Hrev.
  - apply (f_equal (@rev _)) in Hrev. rewrite rev_involutive in Hrev.
    now subst d.
  - exists (rev r), k, f. split; [|reflexivity].
    apply (f_equal (@rev _)) in Hrev. rewrite rev_involutive in Hrev.
    now subst d.
Qed.

Lemma dict_wf_snoc (d : dict) (k : Key) (f : Frame) :
  dict_wf (d ++ [(k, f)])%list -> ~ In k (keys d).
Proof.
  unfold dict_wf, keys. rewrite map_app. simpl. intros Hnd Hin.
  apply NoDup_remove_2 in Hnd. apply Hnd. rewrite app_nil_r. exact Hin.
Qed.

(** ** The two loops *)

(** After a loop over keys of the dictionary, [colnames] holds the columns
    of the epoch at the last key. *)
Lemma for_colnames_snoc (d : dict) (ks : list Key) (k : Key)
    (colnames : option (list string)) :
  (forall i, In i ks -> In i (keys d)) ->
  for_colnames d (ks ++ [k])%list colnames =
  (f <- getitem d k ;; Returned (Some (columns f))).
Proof.
  revert colnames. induction ks as [|i ks IH]; intros colnames Hks; simpl.
  - reflexivity.
  - destruct (getitem_of_key d i (Hks i (or_introl eq_refl))) as [f [Hf _]].
    rewrite Hf. simpl. apply IH. intros j Hj. apply Hks. now right.
Qed.

Lemma for_colnames_last (d : dict) :
  dict_wf d -> d <> [] ->
  for_colnames d (keys d) None = Returned (option_map columns (last_epoch d)).
Proof.
  intros Hwf Hne. destruct (dict_snoc d Hne) as [d' [k [f [Hd Hlast]]]].
  rewrite Hlast. subst d. unfold keys at 1. rewrite map_app. simpl.
  rewrite for_colnames_snoc.
  - rewrite getitem_last by now apply dict_wf_snoc with (f := f).
    reflexivity.
  - intros i Hi. unfold keys. rewrite map_app. apply in_or_app. now left.
Qed.

(** Without asking for distinct keys: the loop ends with the columns of
    some epoch of the collection. *)
Lemma for_colnames_some (d : dict) :
  d <> [] ->
  exists k f, In (k, f) d /\
    for_colnames d (keys d) None = Returned (Some (columns f)).
Proof.
  intros Hne. destruct (dict_snoc d Hne) as [d' [k [f' [Hd _]]]].
  assert (Hk : In k (keys d)).
  { subst d. unfold keys. rewrite map_app. apply in_or_app. right. now left. }
  destruct (getitem_of_key d k Hk) as [f [Hf Hin]].
  exists k, f. split; [exact Hin|].
  assert (Hkeys : keys d = (keys d' ++ [k])%list).
  { subst d. unfold keys. now rewrite map_app. }
  rewrite Hkeys, for_colnames_snoc.
  - now rewrite Hf.
  - intros i Hi. rewrite Hkeys. apply in_or_app. now left.
Qed.

Lemma for_duration_snoc (d : dict) (ks : list Key) (k : Key)
    (sampling_rate : Z) (duration : option Q) :
  sampling_rate <> 0%Z ->
  (forall i, In i ks -> In i (keys d)) ->
  for_duration d (ks ++ [k])%list sampling_rate duration =
  (f <- getitem d k ;; q <- truediv (len f) sampling_rate ;; Returned (Some q)).
Proof.
  intros Hsr. revert duration.
  induction ks as [|i ks IH]; intros duration Hks; simpl.
  - destruct (getitem d k); simpl; [|reflexivity].
    destruct (truediv (len a) sampling_rate); reflexivity.
  - destruct (getitem_of_key d i (Hks i (or_introl eq_refl))) as [f [Hf _]].
    rewrite Hf. simpl. unfold truediv at 1.
    apply Z.eqb_neq in Hsr. rewrite Hsr. simpl.
    apply IH. intros j Hj. apply Hks. now right.
Qed.

(** The duration of a collection is that of the epoch visited last. *)
Lemma for_duration_last (d : dict) (sampling_rate : Z) :
  dict_wf d -> d <> [] -> sampling_rate <> 0%Z ->
  exists f, last_epoch d = Some f /\
    for_duration d (keys d) sampling_rate None =
    Returned (Some (inject_Z (Z.of_nat (len f)) / inject_Z sampling_rate)%Q).
Proof.
  intros Hwf Hne Hsr. destruct (dict_snoc d Hne) as [d' [k [f [Hd Hlast]]]].
  exists f. split; [exact Hlast|]. subst d.
  unfold keys at 1. rewrite map_app. simpl.
  rewrite for_duration_snoc; [|exact Hsr|].
  - rewrite getitem_last by now apply dict_wf_snoc with (f := f).
    simpl. unfold truediv. apply Z.eqb_neq in Hsr. now rewrite Hsr.
  - intros i Hi. unfold keys. rewrite map_app. apply in_or_app. now left.
Qed.

Lemma computed_duration_last (d : dict) (sampling_rate : Z) :
  dict_wf d -> d <> [] -> sampling_rate <> 0%Z ->
  exists f, last_epoch d = Some f /\
    computed_duration (Dict d) sampling_rate =
    Some (inject_Z (Z.of_nat (len f)) / inject_Z sampling_rate)%Q.
Proof.
  intros Hwf Hne Hsr.
  destruct (for_duration_last d sampling_rate Hwf Hne Hsr) as [f [Hlast Hloop]].
  exists f. split; [exact Hlast|]. simpl. now rewrite Hloop.
Qed.

(** ** Which branch a directive takes *)

Lemma interval_not_event (x : string) :
  In x interval_directives -> str_in x event_directives = false.
Proof.
  intros Hin. apply str_in_not_In. intros Hev.
  simpl in Hin, Hev.
  repeat (destruct Hin as [Hin | Hin]; [subst x|]); try contradiction;
    repeat (destruct Hev as [Hev | Hev]; [discriminate Hev|]); contradiction.
Qed.

Section Branches.

Context {Result : Type} `{Strategies Result}.

(** The directive is read up to case. *)
Lemma emg_analyze_lower (data : Data) (sampling_rate : Z) (method : string) :
  emg_analyze data sampling_rate (lower method) =
  emg_analyze data sampling_rate method.
Proof.
  unfold emg_analyze. now rewrite lower_idempotent.
Qed.

Lemma emg_analyze_event (data : Data) (sampling_rate : Z) (method : string) :
  explicit_event method ->
  emg_analyze data sampling_rate method = event_related_branch data.
Proof.
  intros Hm. apply str_in_In in Hm. unfold emg_analyze. now rewrite Hm.
Qed.

Lemma emg_analyze_interval (data : Data) (sampling_rate : Z) (method : string) :
  explicit_interval method ->
  emg_analyze data sampling_rate method = emg_intervalrelated data.
Proof.
  intros Hm. unfold emg_analyze.
  rewrite (interval_not_event _ Hm).
  apply str_in_In in Hm. now rewrite Hm.
Qed.

Lemma emg_analyze_auto (data : Data) (sampling_rate : Z) (method : string) :
  lower method = "auto" ->
  emg_analyze data sampling_rate method = auto_branch data sampling_rate.
Proof.
  intros Hm. unfold emg_analyze. now rewrite Hm.
Qed.

Lemma emg_analyze_unrecognized (data : Data) (sampling_rate : Z)
    (method : string) :
  unrecognized method ->
  emg_analyze data sampling_rate method = Raised (UnboundLocalError "features").
Proof.
  unfold unrecognized. intros Hm. unfold emg_analyze.
  destruct (str_in (lower method) event_directives) eqn:He.
  { exfalso. apply Hm. apply in_or_app. left. now apply str_in_In. }
  destruct (str_in (lower method) interval_directives) eqn:Hi.
  { exfalso. apply Hm. apply in_or_app. right. apply in_or_app. left.
    now apply str_in_In. }
  destruct (str_in (lower method) auto_directives) eqn:Ha.
  { exfalso. apply Hm. apply in_or_app. right. apply in_or_app. right.
    now apply str_in_In. }
  reflexivity.
Qed.

(** The event-related branch once [colnames] is known. *)
Lemma event_related_branch_frame (f : Frame) :
  event_related_branch (DataFrame f) =
  if marker_in f then emg_eventrelated (DataFrame f)
  else Raised (ValueError wrong_input_message).
Proof.
  unfold event_related_branch, marker_in. simpl.
  rewrite label_count_zero. now destruct (existsb has_label (columns f)).
Qed.

Lemma event_related_branch_dict (d : dict) (f : Frame) :
  for_colnames d (keys d) None = Returned (Some (columns f)) ->
  event_related_branch (Dict d) =
  if marker_in f then emg_eventrelated (Dict d)
  else Raised (ValueError wrong_input_message).
Proof.
  intros Hloop. unfold event_related_branch, marker_in. rewrite Hloop. simpl.
  rewrite label_count_zero. now destruct (existsb has_label (columns f)).
Qed.

(** The auto branch, with the bookkeeping of [features] removed. *)
Lemma auto_branch_eq (data : Data) (sampling_rate : Z) :
  auto_branch data sampling_rate =
  match data with
  | Dict d =>
      duration <- for_duration d (keys d) sampling_rate None ;;
      duration <- local "duration" duration ;;
      by_duration data duration
  | DataFrame f =>
      duration <- truediv (len f) sampling_rate ;;
      by_duration data duration
  | Other => Raised (UnboundLocalError "features")
  end.
Proof.
  unfold auto_branch. destruct data as [f | d |]; simpl.
  - destruct (truediv (len f) sampling_rate) as [q | e]; simpl; [|reflexivity].
    now destruct (by_duration (DataFrame f) q).
  - destruct (for_duration d (keys d) sampling_rate None) as [[q|] | e];
      simpl; try reflexivity.
    now destruct (by_duration (Dict d) q).
  - reflexivity.
Qed.

Lemma auto_branch_duration (data : Data) (sampling_rate : Z) (d : Q) :
  computed_duration data sampling_rate = Some d ->
  auto_branch data sampling_rate = by_duration data d.
Proof.
  rewrite auto_branch_eq. unfold computed_duration.
  destruct data as [f | dd |].
  - destruct (truediv (len f) sampling_rate) as [q | e]; [|discriminate].
    intros [= ->]. reflexivity.
  - destruct (for_duration dd (keys dd) sampling_rate None) as [[q|] | e];
      try discriminate.
    intros [= ->]. reflexivity.
  - discriminate.
Qed.

Lemma by_duration_short (data : Data) (d : Q) :
  (d < 10)%Q -> by_duration data d = emg_eventrelated data.
Proof.
  intros Hd. unfold by_duration.
  destruct (Qle_bool 10 d) eqn:Hle; [|reflexivity].
  apply Qle_bool_iff in Hle. exfalso. exact (Qlt_not_le _ _ Hd Hle).
Qed.

Lemma by_duration_long (data : Data) (d : Q) :
  (10 <= d)%Q -> by_duration data d = emg_intervalrelated data.
Proof.
  intros Hd. unfold by_duration.
  apply Qle_bool_iff in Hd. now rewrite Hd.
Qed.

End Branches.

(** ** Properties of the dispatch *)

Section Properties.

Context {Result : Type} `{Strategies Result}.

(** C1.  In auto mode, when the duration [d] (row count divided by the
    sampling rate) has been computed: [d < 10] sends the input to the
    event-related extractor, [d >= 10] to the interval-related one, and so
    does [d == 10]. *)
Theorem auto_threshold (data : Data) (sampling_rate : Z) (d : Q) :
  computed_duration data sampling_rate = Some d ->
  ((d < 10)%Q ->
   emg_analyze data sampling_rate "auto" = emg_eventrelated data) /\
  ((10 <= d)%Q ->
   emg_analyze data sampling_rate "auto" = emg_intervalrelated data) /\
  ((d == 10)%Q ->
   emg_analyze data sampling_rate "auto" = emg_intervalrelated data).
Proof.
  intros Hd.
  rewrite (emg_analyze_auto data sampling_rate "auto" eq_refl).
  rewrite (auto_branch_duration _ _ _ Hd).
  split; [|split].
  - apply by_duration_short.
  - apply by_duration_long.
  - intros Heq. apply by_duration_long. rewrite Heq. apply Qle_refl.
Qed.

(** C2.  What the code does on the directive ["banana"]: no branch assigns
    [features], and [return features] raises [UnboundLocalError], whatever
    the input and the sampling rate. *)
Theorem banana_unbound_features (data : Data) (sampling_rate : Z) :
  emg_analyze data sampling_rate "banana" =
  Raised (UnboundLocalError "features").
Proof.
  apply emg_analyze_unrecognized. unfold unrecognized. simpl.
  intros Hin.
  repeat (destruct Hin as [Hin | Hin]; [discriminate Hin|]). exact Hin.
Qed.

(** X16.  Let no column name of the input, a table or a non-empty
    collection, contain ["Label"].  Under an explicit event-related
    directive (synonyms, any case) the call raises the wrong-input
    [ValueError] and no extractor runs. *)
Theorem marker_check_on_explicit_event (data : Data) (sampling_rate : Z)
    (method : string) :
  has_table data -> no_marker data -> explicit_event method ->
  emg_analyze data sampling_rate method =
  Raised (ValueError wrong_input_message).
Proof.
  intros Htab Hno Hm. rewrite (emg_analyze_event _ _ _ Hm).
  destruct data as [f | d |]; simpl in Htab.
  - rewrite event_related_branch_frame. unfold marker_in.
    destruct (existsb has_label (columns f)) eqn:Hex; [|reflexivity].
    apply existsb_exists in Hex. destruct Hex as [c [Hc Hlab]].
    rewrite (Hno c Hc) in Hlab. discriminate.
  - destruct (for_colnames_some d Htab) as [k [f [Hin Hloop]]].
    rewrite (event_related_branch_dict d f Hloop). unfold marker_in.
    destruct (existsb has_label (columns f)) eqn:Hex; [|reflexivity].
    apply existsb_exists in Hex. destruct Hex as [c [Hc Hlab]].
    assert (Hall : In c (all_column_names (Dict d))).
    { simpl. apply in_flat_map. exists (k, f). auto. }
    rewrite (Hno c Hall) in Hlab. discriminate.
  - contradiction.
Qed.

(** C4.  ["EVENT"], ["epoch"] and ["Event-Related"] all behave as
    ["event-related"] and take the event-related branch; ["Interval"] and
    ["resting-state"] behave as ["interval-related"] and call the
    interval-related extractor; this for every input and sampling rate. *)
Theorem directive_matching (data : Data) (sampling_rate : Z) :
  Forall (fun method =>
            emg_analyze data sampling_rate method =
            emg_analyze data sampling_rate "event-related" /\
            emg_analyze data sampling_rate method = event_related_branch data)
         ["EVENT"; "epoch"; "Event-Related"] /\
  Forall (fun method =>
            emg_analyze data sampling_rate method =
            emg_analyze data sampling_rate "interval-related" /\
            emg_analyze data sampling_rate method = emg_intervalrelated data)
         ["Interval"; "resting-state"].
Proof.
  split; repeat constructor.
Qed.

(** C5, amended.  For a non-empty collection under an explicit
    event-related directive the marker check reads the column names of
    the epoch visited last, and of no other epoch. *)
Theorem marker_check_last_epoch (d : dict) (sampling_rate : Z)
    (method : string) :
  dict_wf d -> d <> [] -> explicit_event method ->
  exists f, last_epoch d = Some f /\
    emg_analyze (Dict d) sampling_rate method =
    if marker_in f then emg_eventrelated (Dict d)
    else Raised (ValueError wrong_input_message).
Proof.
  intros Hwf Hne Hm.
  destruct (dict_snoc d Hne) as [d' [k [f [_ Hlast]]]].
  exists f. split; [exact Hlast|].
  rewrite (emg_analyze_event _ _ _ Hm).
  apply event_related_branch_dict.
  rewrite (for_colnames_last d Hwf Hne), Hlast. reflexivity.
Qed.

(** C6.  For the collection [{0: f0, 1: f1}] of two tables of 200 rows,
    sampling rate 1000 and directive ["auto"], the duration is that of the
    epoch visited last, [len f1 / 1000], which is 0.2, and the input goes
    to the event-related extractor. *)
Theorem two_epochs_of_200_rows (f0 f1 : Frame) :
  len f0 = 200%nat -> len f1 = 200%nat ->
  let data := Dict [(KInt 0, f0); (KInt 1, f1)] in
  exists d,
    computed_duration data 1000 = Some d /\
    d = (inject_Z (Z.of_nat (len f1)) / inject_Z 1000)%Q /\
    (d == 2 # 10)%Q /\
    emg_analyze data 1000 "auto" = emg_eventrelated data.
Proof.
  intros H0 H1 data.
  assert (Hd : computed_duration data 1000 =
               Some (inject_Z (Z.of_nat (len f1)) / inject_Z 1000)%Q)
    by reflexivity.
  eexists. split; [exact Hd|]. split; [reflexivity|].
  rewrite H1. split; [reflexivity|].
  rewrite (emg_analyze_auto data 1000 "auto" eq_refl).
  rewrite (auto_branch_duration _ _ _ Hd).
  apply by_duration_short. rewrite H1. reflexivity.
Qed.

(** C7.  A single table with columns [EMG_Amplitude] and [Label] under
    ["event-related"] is handed to the event-related extractor; with the
    column [EMG_Amplitude] alone the call raises the wrong-input
    [ValueError]. *)
Theorem table_marker_check (content : list (list cell)) (sampling_rate : Z) :
  emg_analyze (DataFrame (mkFrame ["EMG_Amplitude"; "Label"] content))
    sampling_rate "event-related" =
  emg_eventrelated (DataFrame (mkFrame ["EMG_Amplitude"; "Label"] content)) /\
  emg_analyze (DataFrame (mkFrame ["EMG_Amplitude"] content))
    sampling_rate "event-related" =
  Raised (ValueError wrong_input_message).
Proof.
  split; reflexivity.
Qed.

(** C8.  Whatever the two extractors are, the outcome of [emg_analyze] is
    the outcome of the extractor the dispatcher resolves to, run directly
    on the same input: a result comes back as it is, and so does a failure
    of the extractor.  Where the dispatcher resolves to none, it fails by
    itself. *)
Theorem delegation_verbatim (data : Data) (sampling_rate : Z)
    (method : string) :
  emg_analyze data sampling_rate method =
  match resolved data sampling_rate method with
  | Returned s => run s data
  | Raised e => Raised e
  end.
Proof.
  unfold resolved, emg_analyze.
  destruct (str_in (lower method) event_directives).
  { unfold event_related_branch.
    destruct data as [f | d |]; simpl.
    - now destruct (List.length (filter has_label (columns f)) =? 0)%nat.
    - destruct (for_colnames d (keys d) None) as [[c|] | e]; simpl;
        try reflexivity.
      now destruct (List.length (filter has_label c) =? 0)%nat.
    - reflexivity. }
  destruct (str_in (lower method) interval_directives); [reflexivity|].
  destruct (str_in (lower method) auto_directives); [|reflexivity].
  rewrite !auto_branch_eq. unfold by_duration.
  destruct data as [f | d |]; simpl.
  - destruct (truediv (len f) sampling_rate) as [q | e]; simpl;
      [|reflexivity].
    now destruct (Qle_bool 10 q).
  - destruct (for_duration d (keys d) sampling_rate None) as [[q|] | e];
      simpl; try reflexivity.
    now destruct (Qle_bool 10 q).
  - reflexivity.
Qed.

(** C9.  Under an interval-related directive (synonyms, any case) the input
    is handed to the interval-related extractor without any check, also
    when no column name contains ["Label"]. *)
Theorem interval_no_validation (data : Data) (sampling_rate : Z)
    (method : string) :
  explicit_interval method ->
  emg_analyze data sampling_rate method = emg_intervalrelated data.
Proof.
  apply emg_analyze_interval.
Qed.

(** C10.  Under an explicit event-related or interval-related directive
    (synonyms, any case) two calls that differ only in the sampling rate
    have the same outcome; the extractors receive [data] and nothing
    else. *)
Theorem sampling_rate_irrelevant (data : Data) (sr1 sr2 : Z)
    (method : string) :
  explicit_event method \/ explicit_interval method ->
  emg_analyze data sr1 method = emg_analyze data sr2 method.
Proof.
  intros [Hm | Hm].
  - now rewrite !(emg_analyze_event _ _ _ Hm).
  - now rewrite !(emg_analyze_interval _ _ _ Hm).
Qed.

End Properties.

(** ** The properties at sample inputs *)

Lemma short_table_no_marker : no_marker short_table.
Proof.
  intros c [<- | []]. reflexivity.
Qed.

Lemma two_epochs_unmarked_no_marker : no_marker two_epochs_unmarked.
Proof.
  intros c Hc. simpl in Hc. destruct Hc as [<- | [<- | []]]; reflexivity.
Qed.

Lemma marker_first_only_wf : dict_wf marker_first_only.
Proof.
  unfold dict_wf. simpl. repeat constructor; simpl.
  - intros [Heq | []]. discriminate Heq.
  - intros [].
Defined.

(** A table of 0.2 s in auto mode goes to the event-related extractor. *)
Lemma auto_threshold_witness :
  computed_duration short_table 1000 = Some (200 # 1000)%Q /\
  (200 # 1000 < 10)%Q /\
  resolved short_table 1000 "auto" = Returned EventRelated.
Proof.
  split; [reflexivity|]. split; [reflexivity|].
  exact (proj1 (auto_threshold (H := reporting) short_table 1000
                  (200 # 1000)%Q eq_refl) eq_refl).
Defined.

(** C3.  What the code does on a 200-row table without any marker column
    at 1000 Hz: in auto mode the strategy is event-related and the table
    is handed to the event-related extractor without the sanity check,
    while the explicit event-related branch rejects the same table. *)
Lemma auto_mode_skips_marker_check :
  resolves_event_related short_table 1000 "auto" /\
  no_marker short_table /\
  resolved short_table 1000 "auto" = Returned EventRelated /\
  resolved short_table 1000 "auto" <> Raised (ValueError wrong_input_message) /\
  resolved short_table 1000 "event-related" =
  Raised (ValueError wrong_input_message).
Proof.
  split; [|split; [|split; [|split]]].
  - right. split; [reflexivity|]. exists (200 # 1000)%Q.
    split; reflexivity.
  - exact short_table_no_marker.
  - reflexivity.
  - discriminate.
  - reflexivity.
Qed.

Lemma marker_check_on_explicit_event_witness :
  has_table two_epochs_unmarked /\ no_marker two_epochs_unmarked /\
  explicit_event "Epoch" /\
  resolved two_epochs_unmarked 1000 "Epoch" =
  Raised (ValueError wrong_input_message).
Proof.
  assert (Htab : has_table two_epochs_unmarked) by discriminate.
  assert (Hm : explicit_event "Epoch") by (right; right; left; reflexivity).
  split; [exact Htab|]. split; [exact two_epochs_unmarked_no_marker|].
  split; [exact Hm|].
  exact (marker_check_on_explicit_event (H := reporting) two_epochs_unmarked
           1000 "Epoch" Htab two_epochs_unmarked_no_marker Hm).
Defined.

(** C5 as stated fails: the first epoch has a [Label] column, so the full
    set of column names contains the marker, yet the check, which saw the
    second epoch only, rejects the input. *)
Lemma marker_of_earlier_epoch_unseen :
  dict_wf marker_first_only /\
  marker_in_full_set marker_first_only = true /\
  resolved (Dict marker_first_only) 1000 "event-related" =
  Raised (ValueError wrong_input_message).
Proof.
  split; [exact marker_first_only_wf|]. split; reflexivity.
Qed.

Lemma marker_check_last_epoch_witness :
  dict_wf marker_first_only /\ marker_first_only <> [] /\
  explicit_event "event-related" /\
  exists f, last_epoch marker_first_only = Some f /\
    resolved (Dict marker_first_only) 1000 "event-related" =
    if marker_in f then Returned EventRelated
    else Raised (ValueError wrong_input_message).
Proof.
  assert (Hne : marker_first_only <> []) by discriminate.
  assert (Hm : explicit_event "event-related") by (left; reflexivity).
  split; [exact marker_first_only_wf|]. split; [exact Hne|].
  split; [exact Hm|].
  exact (marker_check_last_epoch (H := reporting) marker_first_only 1000
           "event-related" marker_first_only_wf Hne Hm).
Defined.

Lemma two_epochs_of_200_rows_witness :
  len (table_of amplitude_and_label 200) = 200%nat /\
  exists d, computed_duration two_epochs 1000 = Some d /\
    (d == 2 # 10)%Q /\
    resolved two_epochs 1000 "auto" = Returned EventRelated.
Proof.
  split; [reflexivity|].
  destruct (two_epochs_of_200_rows (H := reporting)
              (table_of amplitude_and_label 200)
              (table_of amplitude_and_label 200) eq_refl eq_refl)
    as [d [Hd [_ [Hq Hr]]]].
  exists d. split; [exact Hd|]. split; [exact Hq|exact Hr].
Defined.

Lemma interval_no_validation_witness :
  explicit_interval "Resting-State" /\ no_marker short_table /\
  resolved short_table 1000 "Resting-State" = Returned IntervalRelated.
Proof.
  assert (Hm : explicit_interval "Resting-State")
    by (right; right; left; reflexivity).
  split; [exact Hm|]. split; [exact short_table_no_marker|].
  exact (interval_no_validation (H := reporting) short_table 1000
           "Resting-State" Hm).
Defined.

Lemma sampling_rate_irrelevant_witness :
  (explicit_event "EVENT" \/ explicit_interval "EVENT") /\
  resolved two_epochs 1000 "EVENT" = resolved two_epochs 0 "EVENT".
Proof.
  assert (Hm : explicit_event "EVENT" \/ explicit_interval "EVENT")
    by (left; right; left; reflexivity).
  split; [exact Hm|].
  exact (sampling_rate_irrelevant (H := reporting) two_epochs 1000 0
           "EVENT" Hm).
Defined.

(** ** Further properties: edge cases and failures of the dispatcher *)

(** *** The threshold on whole numbers *)

Lemma threshold_positive_rate (n : nat) (sampling_rate : Z) :
  (0 < sampling_rate)%Z ->
  Qle_bool 10 (inject_Z (Z.of_nat n) / inject_Z sampling_rate) =
  ten_seconds_of_rows n sampling_rate.
Proof.
  intros Hpos. unfold ten_seconds_of_rows.
  assert (Hq : (0 < inject_Z sampling_rate)%Q).
  { change 0%Q with (inject_Z 0). now rewrite <- Zlt_Qlt. }
  destruct (Z.leb_spec (10 * sampling_rate) (Z.of_nat n)) as [Hle | Hlt].
  - apply Qle_bool_iff. apply Qle_shift_div_l; [exact Hq|].
    change 10%Q with (inject_Z 10). rewrite <- inject_Z_mult.
    now rewrite <- Zle_Qle.
  - destruct (Qle_bool 10 (inject_Z (Z.of_nat n) / inject_Z sampling_rate))
      eqn:Hb; [|reflexivity].
    apply Qle_bool_iff in Hb. exfalso. revert Hb. apply Qlt_not_le.
    apply Qlt_shift_div_r; [exact Hq|].
    change 10%Q with (inject_Z 10). rewrite <- inject_Z_mult.
    now rewrite <- Zlt_Qlt.
Qed.

Lemma threshold_negative_rate (n : nat) (sampling_rate : Z) :
  (sampling_rate < 0)%Z ->
  (inject_Z (Z.of_nat n) / inject_Z sampling_rate < 10)%Q.
Proof.
  intros Hneg. destruct sampling_rate as [|p|p]; try lia.
  unfold Qlt, Qdiv, Qmult, Qinv, inject_Z. simpl. lia.
Qed.

Lemma rate_limit_value : rate_limit = 1125899906842624%Z.
Proof. reflexivity. Qed.

(** Below the rate limit a quotient under 10 keeps clear of 10 by more
    than half the spacing of the floats there. *)
Lemma threshold_margin (n : nat) (sampling_rate : Z) :
  (0 < sampling_rate < rate_limit)%Z ->
  if ten_seconds_of_rows n sampling_rate
  then (10 <= inject_Z (Z.of_nat n) / inject_Z sampling_rate)%Q
  else (inject_Z (Z.of_nat n) / inject_Z sampling_rate < 10 - half_spacing)%Q.
Proof.
  intros [Hpos Hlim]. rewrite rate_limit_value in Hlim.
  assert (Hq : (0 < inject_Z sampling_rate)%Q).
  { change 0%Q with (inject_Z 0). now rewrite <- Zlt_Qlt. }
  destruct (ten_seconds_of_rows n sampling_rate) eqn:Hrows.
  - apply Qle_bool_iff. now rewrite threshold_positive_rate.
  - unfold ten_seconds_of_rows in Hrows. apply Z.leb_gt in Hrows.
    apply Qlt_shift_div_r; [exact Hq|].
    unfold Qlt, Qminus, Qplus, Qopp, Qmult, half_spacing, inject_Z.
    cbn [Qnum Qden]. lia.
Qed.

(** *** The loops on any dictionary *)

Lemma for_duration_some (d : dict) (sampling_rate : Z) :
  d <> [] -> sampling_rate <> 0%Z ->
  exists k f, In (k, f) d /\
    for_duration d (keys d) sampling_rate None =
    Returned (Some (inject_Z (Z.of_nat (len f)) / inject_Z sampling_rate)%Q).
Proof.
  intros Hne Hsr. destruct (dict_snoc d Hne) as [d' [k [f' [Hd _]]]].
  assert (Hkeys : keys d = (keys d' ++ [k])%list).
  { subst d. unfold keys. now rewrite map_app. }
  assert (Hk : In k (keys d)).
  { rewrite Hkeys. apply in_or_app. right. now left. }
  destruct (getitem_of_key d k Hk) as [f [Hf Hin]].
  exists k, f. split; [exact Hin|].
  rewrite Hkeys, for_duration_snoc; [|exact Hsr|].
  - rewrite Hf. simpl. unfold truediv.
    apply Z.eqb_neq in Hsr. now rewrite Hsr.
  - intros i Hi. rewrite Hkeys. apply in_or_app. now left.
Qed.

Lemma for_duration_zero_rate (d : dict) (duration : option Q) :
  d <> [] ->
  for_duration d (keys d) 0 duration = Raised ZeroDivisionError.
Proof.
  destruct d as [|[k f] d]; [congruence|]. intros _.
  simpl. now rewrite Key_eqb_refl.
Qed.

Lemma for_duration_cases (d : dict) (sampling_rate : Z) :
  (d = [] /\ for_duration d (keys d) sampling_rate None = Returned None) \/
  (exists q, for_duration d (keys d) sampling_rate None = Returned (Some q)) \/
  for_duration d (keys d) sampling_rate None = Raised ZeroDivisionError.
Proof.
  destruct d as [|kf d]; [now left | right].
  assert (Hne : kf :: d <> []) by discriminate.
  destruct (Z.eqb_spec sampling_rate 0) as [-> | Hsr].
  - right. now apply for_duration_zero_rate.
  - left. destruct (for_duration_some _ sampling_rate Hne Hsr)
      as [k [f [_ Hloop]]].
    eexists. exact Hloop.
Qed.

Lemma auto_is_auto (x : string) : str_in x auto_directives = true -> x = "auto".
Proof.
  intros Hx. apply str_in_In in Hx. destruct Hx as [Hx | []]. now symmetry.
Qed.

Section Edges.

Context {Result : Type} `{Strategies Result}.

(** X1.  The directive is matched up to ASCII case: two directives with the
    same lower-case form give the same outcome, and so does the lower-case
    form itself. *)
Theorem directive_up_to_case (data : Data) (sampling_rate : Z)
    (m1 m2 : string) :
  lower m1 = lower m2 ->
  emg_analyze data sampling_rate m1 = emg_analyze data sampling_rate m2 /\
  emg_analyze data sampling_rate (lower m1) = emg_analyze data sampling_rate m2.
Proof.
  intros Hm. unfold emg_analyze. rewrite lower_idempotent, Hm. now split.
Qed.

(** X2.  A directive whose lower-case form is none of the seven accepted
    names reaches no branch: the call raises [UnboundLocalError] for
    [features], whatever the input, the sampling rate and the extractors. *)
Theorem unrecognized_directive_unbound (data : Data) (sampling_rate : Z)
    (method : string) :
  unrecognized method ->
  emg_analyze data sampling_rate method = Raised (UnboundLocalError "features").
Proof.
  unfold unrecognized, emg_analyze. intros Hm.
  destruct (str_in (lower method) event_directives) eqn:He.
  { apply str_in_In in He. exfalso. apply Hm. apply in_or_app. now left. }
  destruct (str_in (lower method) interval_directives) eqn:Hi.
  { apply str_in_In in Hi. exfalso. apply Hm.
    apply in_or_app. right. apply in_or_app. now left. }
  destruct (str_in (lower method) auto_directives) eqn:Ha.
  { apply str_in_In in Ha. exfalso. apply Hm.
    apply in_or_app. right. apply in_or_app. now right. }
  reflexivity.
Qed.

(** X3.  In auto mode a sampling rate of zero makes the division fail: on
    a table or a non-empty collection the call raises [ZeroDivisionError]
    and no extractor runs. *)
Theorem auto_zero_rate (data : Data) (method : string) :
  has_table data -> lower method = "auto" ->
  emg_analyze data 0 method = Raised ZeroDivisionError.
Proof.
  intros Htab Hm. rewrite (emg_analyze_auto _ _ _ Hm), auto_branch_eq.
  destruct data as [f | d |]; simpl in Htab.
  - reflexivity.
  - now rewrite (for_duration_zero_rate d None Htab).
  - contradiction.
Qed.

(** X4.  An empty collection leaves the loop variables unassigned: under an
    explicit event-related directive the call raises [UnboundLocalError]
    for [colnames], in auto mode for [duration], at any sampling rate. *)
Theorem empty_collection_unbound (sampling_rate : Z) (method : string) :
  (explicit_event method ->
   emg_analyze (Dict []) sampling_rate method =
   Raised (UnboundLocalError "colnames")) /\
  (lower method = "auto" ->
   emg_analyze (Dict []) sampling_rate method =
   Raised (UnboundLocalError "duration")).
Proof.
  split; intros Hm.
  - now rewrite (emg_analyze_event _ _ _ Hm).
  - now rewrite (emg_analyze_auto _ _ _ Hm).
Qed.

(** X5.  An input that is neither a dictionary nor a DataFrame passes both
    [isinstance] tests by: under an explicit event-related directive the
    call raises [UnboundLocalError] for [colnames], in auto mode for
    [features]; under an interval-related directive it is handed on
    unchecked. *)
Theorem unsupported_input (sampling_rate : Z) (method : string) :
  (explicit_event method ->
   emg_analyze Other sampling_rate method =
   Raised (UnboundLocalError "colnames")) /\
  (lower method = "auto" ->
   emg_analyze Other sampling_rate method =
   Raised (UnboundLocalError "features")) /\
  (explicit_interval method ->
   emg_analyze Other sampling_rate method = emg_intervalrelated Other).
Proof.
  split; [|split]; intros Hm.
  - now rewrite (emg_analyze_event _ _ _ Hm).
  - now rewrite (emg_analyze_auto _ _ _ Hm).
  - now rewrite (emg_analyze_interval _ _ _ Hm).
Qed.

(** X6.  In auto mode with a positive sampling rate below [2^50] a table
    goes to the interval-related extractor exactly when it has at least
    ten times the sampling rate in rows, and to the event-related one
    otherwise.  In the first case the quotient is at least 10, in the
    second it is more than [2^-50] below 10, so that the float the code
    computes lies on the same side of 10. *)
Theorem auto_table_rows (f : Frame) (sampling_rate : Z) (method : string) :
  (0 < sampling_rate < rate_limit)%Z -> lower method = "auto" ->
  exists q,
    computed_duration (DataFrame f) sampling_rate = Some q /\
    (if ten_seconds_of_rows (len f) sampling_rate
     then (10 <= q)%Q else (q < 10 - half_spacing)%Q) /\
    emg_analyze (DataFrame f) sampling_rate method =
    if ten_seconds_of_rows (len f) sampling_rate
    then emg_intervalrelated (DataFrame f)
    else emg_eventrelated (DataFrame f).
Proof.
  intros Hrate Hm.
  assert (Hpos : (0 < sampling_rate)%Z) by lia.
  exists (inject_Z (Z.of_nat (len f)) / inject_Z sampling_rate)%Q.
  assert (Hdiv : truediv (len f) sampling_rate =
                 Returned (inject_Z (Z.of_nat (len f)) /
                           inject_Z sampling_rate)%Q).
  { unfold truediv. destruct (Z.eqb_spec sampling_rate 0); [lia|reflexivity]. }
  split; [|split].
  - simpl. now rewrite Hdiv.
  - now apply threshold_margin.
  - rewrite (emg_analyze_auto _ _ _ Hm), auto_branch_eq, Hdiv. simpl.
    unfold by_duration. now rewrite threshold_positive_rate.
Qed.

(** X7.  In auto mode with a positive sampling rate below [2^50] a
    non-empty collection is routed by the row count of its last epoch
    alone, whatever the lengths of the epochs before it: interval-related
    exactly when that epoch has at least ten times the sampling rate in
    rows.  The quotient is then at least 10, and otherwise more than
    [2^-50] below 10. *)
Theorem auto_collection_last_rows (d : dict) (sampling_rate : Z)
    (method : string) :
  dict_wf d -> d <> [] -> (0 < sampling_rate < rate_limit)%Z ->
  lower method = "auto" ->
  exists f q,
    last_epoch d = Some f /\
    computed_duration (Dict d) sampling_rate = Some q /\
    (if ten_seconds_of_rows (len f) sampling_rate
     then (10 <= q)%Q else (q < 10 - half_spacing)%Q) /\
    emg_analyze (Dict d) sampling_rate method =
    if ten_seconds_of_rows (len f) sampling_rate
    then emg_intervalrelated (Dict d)
    else emg_eventrelated (Dict d).
Proof.
  intros Hwf Hne Hrate Hm.
  assert (Hpos : (0 < sampling_rate)%Z) by lia.
  assert (Hsr : sampling_rate <> 0%Z) by lia.
  destruct (for_duration_last d sampling_rate Hwf Hne Hsr) as [f [Hlast Hloop]].
  exists f, (inject_Z (Z.of_nat (len f)) / inject_Z sampling_rate)%Q.
  split; [exact Hlast|]. split; [|split].
  - simpl. now rewrite Hloop.
  - now apply threshold_margin.
  - rewrite (emg_analyze_auto _ _ _ Hm), auto_branch_eq, Hloop. simpl.
    unfold by_duration. now rewrite threshold_positive_rate.
Qed.

(** X8.  In auto mode a negative sampling rate gives a duration that is
    never above zero: a table or non-empty collection of any length goes
    to the event-related extractor. *)
Theorem auto_negative_rate (data : Data) (sampling_rate : Z)
    (method : string) :
  has_table data -> (sampling_rate < 0)%Z -> lower method = "auto" ->
  emg_analyze data sampling_rate method = emg_eventrelated data.
Proof.
  intros Htab Hneg Hm.
  assert (Hsr : sampling_rate <> 0%Z) by lia.
  rewrite (emg_analyze_auto _ _ _ Hm), auto_branch_eq.
  destruct data as [f | d |]; simpl in Htab.
  - unfold truediv. apply Z.eqb_neq in Hsr. rewrite Hsr. simpl.
    apply by_duration_short. now apply threshold_negative_rate.
  - destruct (for_duration_some d sampling_rate Htab Hsr) as [k [f [_ Hloop]]].
    rewrite Hloop. simpl.
    apply by_duration_short. now apply threshold_negative_rate.
  - contradiction.
Qed.

(** X9.  In auto mode the dispatcher does not fail by itself on a table or
    a non-empty collection when the sampling rate is not zero: it resolves
    to one of the two extractors and returns what that extractor does. *)
Theorem auto_resolves (data : Data) (sampling_rate : Z) (method : string) :
  has_table data -> sampling_rate <> 0%Z -> lower method = "auto" ->
  exists s, resolved data sampling_rate method = Returned s /\
    emg_analyze data sampling_rate method = run s data.
Proof.
  intros Htab Hsr Hm. unfold resolved.
  rewrite !(emg_analyze_auto _ _ _ Hm), !auto_branch_eq.
  assert (Hby : forall q,
            exists s, by_duration (H := reporting) data q = Returned s /\
                      by_duration data q = run s data).
  { intros q. unfold by_duration. destruct (Qle_bool 10 q).
    - now exists IntervalRelated.
    - now exists EventRelated. }
  destruct data as [f | d |]; simpl in Htab.
  - unfold truediv. apply Z.eqb_neq in Hsr. rewrite Hsr. simpl. apply Hby.
  - destruct (for_duration_some d sampling_rate Htab Hsr) as [k [f [_ Hloop]]].
    rewrite Hloop. simpl. apply Hby.
  - contradiction.
Qed.

(** X10.  Under an explicit event-related directive a table passes the
    marker check exactly when one of its column names contains ["Label"]
    as a substring, in this spelling: then the table is handed to the
    event-related extractor, and otherwise the call raises the wrong-input
    [ValueError]. *)
Theorem event_marker_substring (f : Frame) (sampling_rate : Z)
    (method : string) :
  explicit_event method ->
  ((exists c, In c (columns f) /\ contains_label c) ->
   emg_analyze (DataFrame f) sampling_rate method =
   emg_eventrelated (DataFrame f)) /\
  ((forall c, In c (columns f) -> ~ contains_label c) ->
   emg_analyze (DataFrame f) sampling_rate method =
   Raised (ValueError wrong_input_message)).
Proof.
  intros Hm. rewrite (emg_analyze_event _ _ _ Hm), event_related_branch_frame.
  unfold marker_in. split.
  - intros [c [Hc Hlab]]. apply has_label_spec in Hlab.
    assert (Hex : existsb has_label (columns f) = true).
    { apply existsb_exists. now exists c. }
    now rewrite Hex.
  - intros Hnone. destruct (existsb has_label (columns f)) eqn:Hex;
      [|reflexivity].
    apply existsb_exists in Hex. destruct Hex as [c [Hc Hlab]].
    apply has_label_spec in Hlab. now destruct (Hnone c Hc).
Qed.

End Edges.

(** X11.  Under an explicit event-related directive the interval-related
    extractor is never reached, whatever the input and the sampling rate.
    On a table or a non-empty collection of tables, column names being
    strings, the call has two outcomes only: that of the event-related
    extractor, or the wrong-input [ValueError]; the lookups of the loop
    do not miss and the sampling rate is not divided by. *)
Theorem event_directive_outcomes (data : Data) (sampling_rate : Z)
    (method : string) :
  explicit_event method ->
  resolved data sampling_rate method <> Returned IntervalRelated /\
  (has_table data ->
   resolved data sampling_rate method = Returned EventRelated \/
   resolved data sampling_rate method =
   Raised (ValueError wrong_input_message)).
Proof.
  intros Hm. unfold resolved.
  rewrite (emg_analyze_event _ _ _ Hm).
  destruct data as [f | d |].
  - rewrite event_related_branch_frame.
    destruct (marker_in f); split; try discriminate; intros _; auto.
  - destruct d as [|kf d].
    + split; [discriminate | intros Htab; now destruct Htab].
    + assert (Hne : kf :: d <> []) by discriminate.
      destruct (for_colnames_some _ Hne) as [k [f [_ Hloop]]].
      rewrite (event_related_branch_dict _ f Hloop).
      destruct (marker_in f); split; try discriminate; intros _; auto.
  - split; [discriminate | intros []].
Qed.

(** X12.  In auto mode the dispatcher makes no marker check and its
    dictionary lookups cannot miss: when it fails by itself, the failure
    is [ZeroDivisionError] or an [UnboundLocalError] for [duration] or
    [features], never the wrong-input [ValueError] nor a [KeyError]. *)
Theorem auto_mode_failures (data : Data) (sampling_rate : Z)
    (method : string) (e : exn) :
  lower method = "auto" ->
  resolved data sampling_rate method = Raised e -> auto_failure e.
Proof.
  intros Hm. unfold resolved, auto_failure.
  rewrite (emg_analyze_auto _ _ _ Hm), auto_branch_eq.
  destruct data as [f | d |].
  - unfold truediv. destruct (sampling_rate =? 0)%Z; simpl.
    + intros [= <-]. now left.
    + unfold by_duration. destruct (Qle_bool 10 _); discriminate.
  - destruct (for_duration_cases d sampling_rate)
      as [[_ Hloop] | [[q Hloop] | Hloop]]; rewrite Hloop; simpl.
    + intros [= <-]. right. now left.
    + unfold by_duration. destruct (Qle_bool 10 q); discriminate.
    + intros [= <-]. now left.
  - intros [= <-]. right. now right.
Qed.

(** X13.  The call ends in [UnboundLocalError] for [features] in two cases
    only: the directive is not recognized, or auto mode meets an input
    that is neither a dictionary nor a DataFrame. *)
Theorem features_unbound_iff (data : Data) (sampling_rate : Z)
    (method : string) :
  resolved data sampling_rate method = Raised (UnboundLocalError "features")
  <-> unrecognized method \/ (lower method = "auto" /\ data = Other).
Proof.
  split.
  - intros Hres.
    destruct (str_in (lower method) event_directives) eqn:He.
    { apply str_in_In in He. exfalso. unfold resolved in Hres.
      rewrite (emg_analyze_event _ _ _ He) in Hres.
      destruct data as [f | [|kf d] |]; try discriminate Hres.
      - rewrite event_related_branch_frame in Hres.
        destruct (marker_in f); discriminate.
      - assert (Hne : kf :: d <> []) by discriminate.
        destruct (for_colnames_some _ Hne) as [k [f [_ Hloop]]].
        rewrite (event_related_branch_dict _ f Hloop) in Hres.
        destruct (marker_in f); discriminate. }
    destruct (str_in (lower method) interval_directives) eqn:Hi.
    { apply str_in_In in Hi. unfold resolved in Hres.
      rewrite (emg_analyze_interval _ _ _ Hi) in Hres. discriminate. }
    destruct (str_in (lower method) auto_directives) eqn:Ha.
    { apply auto_is_auto in Ha. right. split; [exact Ha|].
      unfold resolved in Hres.
      rewrite (emg_analyze_auto _ _ _ Ha), auto_branch_eq in Hres.
      destruct data as [f | d |]; [| |reflexivity]; exfalso.
      - unfold truediv in Hres.
        destruct (sampling_rate =? 0)%Z; simpl in Hres; [discriminate|].
        unfold by_duration in Hres. destruct (Qle_bool 10 _); discriminate.
      - destruct (for_duration_cases d sampling_rate)
          as [[_ Hloop] | [[q Hloop] | Hloop]];
          rewrite Hloop in Hres; simpl in Hres; try discriminate.
        unfold by_duration in Hres. destruct (Qle_bool 10 q); discriminate. }
    left. unfold unrecognized. intros Hin.
    apply in_app_or in Hin. destruct Hin as [Hin | Hin].
    { apply str_in_In in Hin. congruence. }
    apply in_app_or in Hin. destruct Hin as [Hin | Hin];
      apply str_in_In in Hin; congruence.
  - intros [Hm | [Hm ->]]; unfold resolved.
    + now apply emg_analyze_unrecognized.
    + now rewrite (emg_analyze_auto _ _ _ Hm).
Qed.

Lemma auto_table_resolved (f : Frame) (sampling_rate : Z) (method : string) :
  (0 < sampling_rate)%Z -> lower method = "auto" ->
  resolved (DataFrame f) sampling_rate method =
  Returned (if ten_seconds_of_rows (len f) sampling_rate
            then IntervalRelated else EventRelated).
Proof.
  intros Hpos Hm. unfold resolved.
  rewrite (emg_analyze_auto _ _ _ Hm), auto_branch_eq.
  unfold truediv. destruct (Z.eqb_spec sampling_rate 0) as [-> | _]; [lia|].
  simpl. unfold by_duration. rewrite threshold_positive_rate by exact Hpos.
  now destruct (ten_seconds_of_rows (len f) sampling_rate).
Qed.

(** X14.  In auto mode with a positive sampling rate, more rows never turn
    an interval-related table into an event-related one. *)
Theorem auto_monotone_in_rows (f1 f2 : Frame) (sampling_rate : Z)
    (method : string) :
  (0 < sampling_rate)%Z -> lower method = "auto" ->
  (len f1 <= len f2)%nat ->
  resolved (DataFrame f1) sampling_rate method = Returned IntervalRelated ->
  resolved (DataFrame f2) sampling_rate method = Returned IntervalRelated.
Proof.
  intros Hpos Hm Hlen.
  rewrite !(auto_table_resolved _ _ _ Hpos Hm). unfold ten_seconds_of_rows.
  destruct (Z.leb_spec (10 * sampling_rate) (Z.of_nat (len f1))) as [H1 | H1];
    [|discriminate].
  intros _.
  destruct (Z.leb_spec (10 * sampling_rate) (Z.of_nat (len f2))) as [H2 | H2];
    [reflexivity | lia].
Qed.

(** X15.  In auto mode the choice is unchanged by resampling: a table with
    [k] times the rows, analysed at [k] times the (positive) sampling rate,
    resolves to the same extractor. *)
Theorem auto_resampling_invariant (f1 f2 : Frame) (sampling_rate k : Z)
    (method : string) :
  (0 < sampling_rate)%Z -> (0 < k)%Z -> lower method = "auto" ->
  Z.of_nat (len f2) = (k * Z.of_nat (len f1))%Z ->
  resolved (DataFrame f2) (k * sampling_rate) method =
  resolved (DataFrame f1) sampling_rate method.
Proof.
  intros Hpos Hk Hm Hlen.
  assert (Hpos' : (0 < k * sampling_rate)%Z) by lia.
  rewrite (auto_table_resolved _ _ _ Hpos Hm).
  rewrite (auto_table_resolved _ _ _ Hpos' Hm).
  unfold ten_seconds_of_rows. rewrite Hlen.
  destruct (Z.leb_spec (10 * sampling_rate) (Z.of_nat (len f1))) as [H1 | H1];
    destruct (Z.leb_spec (10 * (k * sampling_rate)) (k * Z.of_nat (len f1)))
      as [H2 | H2]; try reflexivity; nia.
Qed.

(** *** The further properties at sample inputs *)

Lemma long_then_short_wf : dict_wf long_then_short.
Proof.
  unfold dict_wf. simpl. repeat constructor; simpl.
  - intros [Heq | []]. discriminate Heq.
  - intros [].
Defined.

Lemma blank_auto_unrecognized : unrecognized " auto".
Proof.
  unfold unrecognized. simpl. intros Hin.
  repeat (destruct Hin as [Hin | Hin]; [discriminate Hin|]). exact Hin.
Defined.

Lemma lowercase_marker_none :
  forall c, In c (columns lowercase_marker) -> ~ contains_label c.
Proof.
  intros c Hc Hlab. apply has_label_spec in Hlab.
  simpl in Hc. destruct Hc as [<- | [<- | []]]; discriminate Hlab.
Defined.

Lemma directive_up_to_case_witness :
  lower "Resting-State" = lower "RESTING-STATE" /\
  resolved short_table 1000 "Resting-State" =
  resolved short_table 1000 "RESTING-STATE".
Proof.
  split; [reflexivity|].
  exact (proj1 (directive_up_to_case (H := reporting) short_table 1000
                  "Resting-State" "RESTING-STATE" eq_refl)).
Defined.

(** The directive is not stripped of blanks. *)
Lemma unrecognized_directive_unbound_witness :
  unrecognized " auto" /\
  resolved short_table 1000 " auto" = Raised (UnboundLocalError "features").
Proof.
  split; [exact blank_auto_unrecognized|].
  exact (unrecognized_directive_unbound (H := reporting) short_table 1000
           " auto" blank_auto_unrecognized).
Defined.

Lemma auto_zero_rate_witness :
  has_table two_epochs /\ lower "AUTO" = "auto" /\
  resolved two_epochs 0 "AUTO" = Raised ZeroDivisionError.
Proof.
  split; [discriminate|]. split; [reflexivity|].
  refine (auto_zero_rate (H := reporting) two_epochs "AUTO" _ eq_refl).
  discriminate.
Defined.

Lemma empty_collection_unbound_witness :
  explicit_event "event" /\
  resolved (Dict []) 1000 "event" = Raised (UnboundLocalError "colnames") /\
  resolved (Dict []) 1000 "auto" = Raised (UnboundLocalError "duration").
Proof.
  assert (Hm : explicit_event "event") by (right; left; reflexivity).
  split; [exact Hm|]. split.
  - exact (proj1 (empty_collection_unbound (H := reporting) 1000 "event") Hm).
  - exact (proj2 (empty_collection_unbound (H := reporting) 1000 "auto")
             eq_refl).
Defined.

Lemma unsupported_input_witness :
  explicit_event "event" /\
  resolved Other 1000 "event" = Raised (UnboundLocalError "colnames") /\
  resolved Other 1000 "auto" = Raised (UnboundLocalError "features").
Proof.
  assert (Hm : explicit_event "event") by (right; left; reflexivity).
  split; [exact Hm|]. split.
  - exact (proj1 (unsupported_input (H := reporting) 1000 "event") Hm).
  - exact (proj1 (proj2 (unsupported_input (H := reporting) 1000 "auto"))
             eq_refl).
Defined.

(** One hundred rows at 10 Hz are ten seconds: interval-related. *)
Lemma auto_table_rows_witness :
  (0 < 10 < rate_limit)%Z /\ lower "auto" = "auto" /\
  exists q, computed_duration ten_second_table 10 = Some q /\
    (10 <= q)%Q /\
    resolved ten_second_table 10 "auto" = Returned IntervalRelated.
Proof.
  assert (Hrate : (0 < 10 < rate_limit)%Z) by (split; reflexivity).
  split; [exact Hrate|]. split; [reflexivity|].
  exact (auto_table_rows (H := reporting) (table_of amplitude_and_label 100)
           10 "auto" Hrate eq_refl).
Defined.

(** The first epoch is ten seconds long, the last one two: event-related. *)
Lemma auto_collection_last_rows_witness :
  dict_wf long_then_short /\ long_then_short <> [] /\
  (0 < 10 < rate_limit)%Z /\ lower "auto" = "auto" /\
  exists f q, last_epoch long_then_short = Some f /\
    computed_duration (Dict long_then_short) 10 = Some q /\
    (if ten_seconds_of_rows (len f) 10
     then (10 <= q)%Q else (q < 10 - half_spacing)%Q) /\
    resolved (Dict long_then_short) 10 "auto" =
    if ten_seconds_of_rows (len f) 10
    then Returned IntervalRelated else Returned EventRelated.
Proof.
  assert (Hne : long_then_short <> []) by discriminate.
  assert (Hrate : (0 < 10 < rate_limit)%Z) by (split; reflexivity).
  split; [exact long_then_short_wf|]. split; [exact Hne|].
  split; [exact Hrate|]. split; [reflexivity|].
  exact (auto_collection_last_rows (H := reporting) long_then_short 10 "auto"
           long_then_short_wf Hne Hrate eq_refl).
Defined.

Lemma auto_negative_rate_witness :
  has_table ten_second_table /\ (-1 < 0)%Z /\ lower "auto" = "auto" /\
  resolved ten_second_table (-1) "auto" = Returned EventRelated.
Proof.
  split; [exact I|]. split; [reflexivity|]. split; [reflexivity|].
  exact (auto_negative_rate (H := reporting) ten_second_table (-1) "auto"
           I eq_refl eq_refl).
Defined.

Lemma auto_resolves_witness :
  has_table two_epochs /\ 1000%Z <> 0%Z /\ lower "auto" = "auto" /\
  exists s, resolved two_epochs 1000 "auto" = Returned s /\
    resolved two_epochs 1000 "auto" = run s two_epochs.
Proof.
  assert (Htab : has_table two_epochs) by discriminate.
  assert (Hsr : 1000%Z <> 0%Z) by discriminate.
  split; [exact Htab|]. split; [exact Hsr|]. split; [reflexivity|].
  exact (auto_resolves (H := reporting) two_epochs 1000 "auto"
           Htab Hsr eq_refl).
Defined.

(** ["Condition_Label_1"] carries the marker, ["label"] does not. *)
Lemma event_marker_substring_witness :
  explicit_event "event" /\
  (exists c, In c (columns embedded_marker) /\ contains_label c) /\
  resolved (DataFrame embedded_marker) 1000 "event" = Returned EventRelated /\
  resolved (DataFrame lowercase_marker) 1000 "event" =
  Raised (ValueError wrong_input_message).
Proof.
  assert (Hm : explicit_event "event") by (right; left; reflexivity).
  assert (Hex : exists c, In c (columns embedded_marker) /\ contains_label c).
  { exists "Condition_Label_1". split; [right; left; reflexivity|].
    exists "Condition_", "_1". reflexivity. }
  split; [exact Hm|]. split; [exact Hex|]. split.
  - exact (proj1 (event_marker_substring (H := reporting) embedded_marker
                    1000 "event" Hm) Hex).
  - exact (proj2 (event_marker_substring (H := reporting) lowercase_marker
                    1000 "event" Hm) lowercase_marker_none).
Defined.

Lemma event_directive_outcomes_witness :
  explicit_event "Epoch" /\ has_table short_table /\
  resolved short_table 1000 "Epoch" <> Returned IntervalRelated /\
  (resolved short_table 1000 "Epoch" = Returned EventRelated \/
   resolved short_table 1000 "Epoch" =
   Raised (ValueError wrong_input_message)).
Proof.
  assert (Hm : explicit_event "Epoch") by (right; right; left; reflexivity).
  split; [exact Hm|]. split; [exact I|].
  split.
  - exact (proj1 (event_directive_outcomes short_table 1000 "Epoch" Hm)).
  - exact (proj2 (event_directive_outcomes short_table 1000 "Epoch" Hm) I).
Defined.

Lemma auto_mode_failures_witness :
  lower "auto" = "auto" /\
  resolved short_table 0 "auto" = Raised ZeroDivisionError /\
  auto_failure ZeroDivisionError.
Proof.
  split; [reflexivity|]. split; [reflexivity|].
  exact (auto_mode_failures short_table 0 "auto" ZeroDivisionError
           eq_refl eq_refl).
Defined.

Lemma auto_monotone_in_rows_witness :
  (0 < 10)%Z /\ lower "auto" = "auto" /\
  (len (table_of amplitude_only 100) <= len (table_of amplitude_only 200))%nat /\
  resolved (DataFrame (table_of amplitude_only 100)) 10 "auto" =
  Returned IntervalRelated /\
  resolved (DataFrame (table_of amplitude_only 200)) 10 "auto" =
  Returned IntervalRelated.
Proof.
  assert (Hlen : (len (table_of amplitude_only 100) <=
                  len (table_of amplitude_only 200))%nat).
  { apply Nat.leb_le. reflexivity. }
  split; [reflexivity|]. split; [reflexivity|]. split; [exact Hlen|].
  split; [reflexivity|].
  exact (auto_monotone_in_rows (table_of amplitude_only 100)
           (table_of amplitude_only 200) 10 "auto"
           eq_refl eq_refl Hlen eq_refl).
Defined.

(** 100 rows at 10 Hz and 200 rows at 20 Hz are the same ten seconds. *)
Lemma auto_resampling_invariant_witness :
  (0 < 10)%Z /\ (0 < 2)%Z /\ lower "auto" = "auto" /\
  Z.of_nat (len (table_of amplitude_only 200)) =
  (2 * Z.of_nat (len (table_of amplitude_only 100)))%Z /\
  resolved (DataFrame (table_of amplitude_only 200)) (2 * 10) "auto" =
  resolved (DataFrame (table_of amplitude_only 100)) 10 "auto".
Proof.
  split; [reflexivity|]. split; [reflexivity|]. split; [reflexivity|].
  split; [reflexivity|].
  exact (auto_resampling_invariant (table_of amplitude_only 100)
           (table_of amplitude_only 200) 10 2 "auto"
           eq_refl eq_refl eq_refl eq_refl).
Defined.
